(** * cryptonumbers: the click handler of [script.js]

    The script registers one asynchronous click handler.  The handler
    reads two input fields, fetches a Binance 24hr ticker for each,
    divides the two [quoteVolume] fields, formats the quotient with
    [toFixed(2)] and writes one line of text into the page; any
    exception raised on the way is caught, replaced on the page by a
    fixed message and reported with [console.error].

    The development has three layers:
    - [Double]: ECMAScript Number values (IEEE 754 binary64) with the
      division, [Number::toString] and [Number.prototype.toFixed];
    - [JS]: the values [response.json()] can produce, the property
      access [data.quoteVolume] and [ToNumber];
    - the handler itself, written in a small monad of programs that
      talk to the page and to the network, and an interpreter that
      runs such a program against a world and records what it did.

    Definitions come first; the facts about them, and the properties of
    the handler, follow. *)

From Stdlib Require Import ZArith QArith List String Ascii Bool Lia.
From Stdlib Require Import Floats.SpecFloat.
Import ListNotations.

Local Open Scope string_scope.
Local Open Scope Z_scope.

Set Warnings "-register-all".

(** ** Number values *)

Module Double.

Definition prec : Z := 53.
Definition emax : Z := 1024.

(** A Number is a [spec_float] that fits binary64. *)
Definition number : Type := spec_float.

Definition is_double (x : number) : bool := valid_binary prec emax x.

Definition NaN : number := S754_nan.
Definition Infinity : number := S754_infinity false.
Definition pos_zero : number := S754_zero false.

(** The Number value for an integer (round to nearest, ties to even). *)
Definition of_Z (z : Z) : number := binary_normalize prec emax z 0 false.

(** The Number value for the positive rational [n / d]. *)
Definition of_ratio (neg : bool) (n d : positive) : number :=
  let '(q, e, l) := SFdiv_core_binary prec emax (Zpos n) 0 (Zpos d) 0 in
  binary_round_aux prec emax neg q e l.

(** The Number value for [n * 10 ^ e]. *)
Definition of_decimal (neg : bool) (n : N) (e : Z) : number :=
  match n with
  | N0 => S754_zero neg
  | Npos p =>
      if 0 <=? e
      then binary_normalize prec emax
             (cond_Zopp neg (Zpos p * 10 ^ e)) 0 neg
      else of_ratio neg p (Z.to_pos (10 ^ (- e)))
  end.

(** [x / y] on Numbers. *)
Definition div (x y : number) : number := SFdiv prec emax x y.

Definition is_nan (x : number) : bool :=
  match x with S754_nan => true | _ => false end.

Definition is_finite (x : number) : bool :=
  match x with
  | S754_zero _ | S754_finite _ _ _ => true
  | _ => false
  end.

Definition is_zero (x : number) : bool :=
  match x with S754_zero _ => true | _ => false end.

(** *** Decimal digits *)

Definition digit_char (d : Z) : ascii :=
  ascii_of_N (48 + Z.to_N d).

Fixpoint digits_fuel (fuel : nat) (n : Z) (acc : string) : string :=
  match fuel with
  | O => acc
  | S fuel' =>
      let acc' := String (digit_char (n mod 10)) acc in
      if n <? 10 then acc' else digits_fuel fuel' (n / 10) acc'
  end.

(** The decimal representation of a nonnegative integer, without
    leading zeros ("0" for zero).  An integer has no more decimal
    digits than binary ones, which bounds the recursion. *)
Definition digits (n : Z) : string :=
  digits_fuel (S (Z.to_nat (Z.log2 n))) n "".

Fixpoint zeros (k : nat) : string :=
  match k with
  | O => ""
  | S k' => String "0" (zeros k')
  end.

(** Split a string after its first [k] characters. *)
Fixpoint split_at (k : nat) (s : string) : string * string :=
  match k, s with
  | O, _ => ("", s)
  | S k', String c s' =>
      let '(a, b) := split_at k' s' in (String c a, b)
  | S _, EmptyString => ("", "")
  end.

(** *** Number::toString, radix 10

    For a finite positive [m * 2 ^ e] the standard asks for integers
    [n], [k], [s] with [10^(k-1) <= s < 10^k], such that the Number
    value for [s * 10^(n-k)] is the number itself and [k] is as small
    as possible; among several [s] the one closest to the number is
    taken (the accurate variant every engine implements).

    The reals that round to [m * 2 ^ e] lie between the midpoints to
    its neighbours.  In units of [2 ^ (e - 2)] the number is [4 m], the
    upper midpoint [4 m + 2] and the lower one [4 m - 2], or [4 m - 1]
    when [m] is the least normal mantissa and the lower neighbour is
    half as far.  The midpoints themselves round to the number when
    [m] is even. *)

Definition emin : Z := 3 - emax - prec.

Definition lower_mid (m : positive) (e : Z) : Z :=
  if (Zpos m =? 2 ^ (prec - 1)) && (emin <? e)
  then 4 * Zpos m - 1 else 4 * Zpos m - 2.

Definition upper_mid (m : positive) : Z := 4 * Zpos m + 2.

(** The decimal exponent [n0] of [v = m * 2 ^ e]:
    [10^(n0-1) <= v < 10^n0]. *)
Fixpoint count_up (fuel : nat) (num den : Z) (j : Z) : Z :=
  (* least j' >= j with num * 10 ^ (j' - j) >= den *)
  match fuel with
  | O => j
  | S fuel' =>
      if den <=? num then j else count_up fuel' (num * 10) den (j + 1)
  end.

Definition decimal_exponent (m : positive) (e : Z) : Z :=
  if 0 <=? e
  then Z.of_nat (String.length (digits (Zpos m * 2 ^ e)))
  else
    let den := 2 ^ (- e) in
    if den <=? Zpos m
    then Z.of_nat (String.length (digits (Zpos m / den)))
    else 1 - count_up 400 (Zpos m * 10) den 1.

(** Nearest integer to [a / b] ([b > 0]), ties to even. *)
Definition div_nearest_even (a b : Z) : Z :=
  let q := a / b in
  let r := a mod b in
  match 2 * r ?= b with
  | Lt => q
  | Gt => q + 1
  | Eq => if Z.even q then q else q + 1
  end.

Definition clamp (lo hi x : Z) : Z := Z.max lo (Z.min hi x).

(** The candidate with [k] digits, if there is one: [s] ranges over
    [10^(k-1) .. 10^k], the last value standing for the digit 1 at the
    next decimal exponent. *)
Definition shortest_at (m : positive) (e n0 : Z) (k : Z) : option Z :=
  let t := n0 - k in
  let a := 10 ^ (Z.max 0 t) * 2 ^ (Z.max 0 (2 - e)) in
  let b := 2 ^ (Z.max 0 (e - 2)) * 10 ^ (Z.max 0 (- t)) in
  let closed := Z.even (Zpos m) in
  let lo := lower_mid m e * b in
  let hi := upper_mid m * b in
  let smin := if closed then (lo + a - 1) / a else lo / a + 1 in
  let smax := if closed then hi / a else (hi + a - 1) / a - 1 in
  let smin' := Z.max smin (10 ^ (k - 1)) in
  let smax' := Z.min smax (10 ^ k) in
  if smin' <=? smax'
  then Some (clamp smin' smax' (div_nearest_even (4 * Zpos m * b) a))
  else None.

Fixpoint shortest_from (fuel : nat) (m : positive) (e n0 : Z) (k : Z)
  : Z * Z * Z :=
  match fuel with
  | O => (n0, k, 10 ^ (k - 1))
  | S fuel' =>
      match shortest_at m e n0 k with
      | Some s => if s =? 10 ^ k then (n0 + 1, 1, 1) else (n0, k, s)
      | None => shortest_from fuel' m e n0 (k + 1)
      end
  end.

(** [(n, k, s)] of the standard.  Seventeen digits always suffice for a
    binary64 value. *)
Definition shortest (m : positive) (e : Z) : Z * Z * Z :=
  shortest_from 17 m e (decimal_exponent m e) 1.

Definition exponent_part (n : Z) : string :=
  "e" ++ (if 0 <=? n - 1 then "+" else "-") ++ digits (Z.abs (n - 1)).

Definition to_string_pos (m : positive) (e : Z) : string :=
  let '(n, k, s) := shortest m e in
  let ds := digits s in
  if (k <=? n) && (n <=? 21) then
    ds ++ zeros (Z.to_nat (n - k))
  else if (0 <? n) && (n <=? 21) then
    let '(a, b) := split_at (Z.to_nat n) ds in a ++ "." ++ b
  else if (-6 <? n) && (n <=? 0) then
    "0." ++ zeros (Z.to_nat (- n)) ++ ds
  else if k =? 1 then
    ds ++ exponent_part n
  else
    let '(a, b) := split_at 1 ds in a ++ "." ++ b ++ exponent_part n.

Definition to_string (x : number) : string :=
  match x with
  | S754_nan => "NaN"
  | S754_zero _ => "0"
  | S754_infinity false => "Infinity"
  | S754_infinity true => "-Infinity"
  | S754_finite false m e => to_string_pos m e
  | S754_finite true m e => "-" ++ to_string_pos m e
  end.

(** *** Number.prototype.toFixed

    [toFixed fractionDigits x] for [0 <= fractionDigits <= 100], the
    range in which the method does not raise a RangeError. *)

(** The integer [n] for which [n / 10^f - m * 2^e] is as close to zero
    as possible, the larger one if there are two. *)
Definition fixed_integer (f : nat) (m : positive) (e : Z) : Z :=
  let scaled := Zpos m * 10 ^ Z.of_nat f in
  if 0 <=? e then scaled * 2 ^ e
  else (2 * scaled + 2 ^ (- e)) / (2 * 2 ^ (- e)).

(** [m * 2^e >= 10^21] *)
Definition at_least_1e21 (m : positive) (e : Z) : bool :=
  if 0 <=? e then 10 ^ 21 <=? Zpos m * 2 ^ e
  else 10 ^ 21 * 2 ^ (- e) <=? Zpos m.

(** The digits of [n] with a decimal point before the last [f]. *)
Definition fixed_digits (f : nat) (n : Z) : string :=
  let m := digits n in
  match f with
  | O => m
  | S _ =>
      let k := String.length m in
      let m' := if (k <=? f)%nat then zeros (f + 1 - k) ++ m else m in
      let '(a, b) := split_at (String.length m' - f) m' in
      a ++ "." ++ b
  end.

Definition toFixed (fractionDigits : nat) (x : number) : string :=
  match x with
  | S754_zero _ => fixed_digits fractionDigits 0
  | S754_finite neg m e =>
      (if neg then "-" else "") ++
      (if at_least_1e21 m e then to_string_pos m e
       else fixed_digits fractionDigits (fixed_integer fractionDigits m e))
  | _ => to_string x
  end.

(** *** Two decimal places

    What "formatted to exactly two decimal places" asks of a string
    and of the number it stands for, stated without [toFixed]. *)

(** The sign [toFixed] prints: zeros have none. *)
Definition is_negative (x : number) : bool :=
  match x with
  | S754_finite neg _ _ => neg
  | _ => false
  end.

(** Finite and of magnitude below [10^21], where [toFixed] still uses
    fixed-point notation. *)
Definition below_1e21 (x : number) : bool :=
  match x with
  | S754_zero _ => true
  | S754_finite _ m e => negb (at_least_1e21 m e)
  | _ => false
  end.

(** The absolute value of a finite number, as a rational. *)
Definition magnitude (x : number) : Q :=
  match x with
  | S754_finite _ m e =>
      if 0 <=? e then inject_Z (Zpos m * 2 ^ e)
      else Zpos m # Z.to_pos (2 ^ (- e))
  | _ => 0%Q
  end.

(** [n] hundredths is the magnitude of [x] rounded to two decimal
    places, a tie going up. *)
Definition nearest_hundredth (n : Z) (x : number) : Prop :=
  (100 * magnitude x - (1 # 2) < inject_Z n /\
   inject_Z n <= 100 * magnitude x + (1 # 2))%Q.

(** The hundredths [toFixed 2] prints for a finite number. *)
Definition hundredths (x : number) : Z :=
  match x with
  | S754_finite _ m e => fixed_integer 2 m e
  | _ => 0
  end.

(** Fixed-point notation of [n] hundredths: the whole part, a point,
    two digits. *)
Definition fixed_point_2 (neg : bool) (n : Z) : string :=
  (if neg then "-" else "") ++ digits (n / 100) ++ "." ++
  String (digit_char (n / 10 mod 10)) (String (digit_char (n mod 10)) "").

Definition is_digit (c : ascii) : bool :=
  ((48 <=? N_of_ascii c) && (N_of_ascii c <=? 57))%N.

Fixpoint all_digits (s : string) : bool :=
  match s with
  | EmptyString => true
  | String c s' => is_digit c && all_digits s'
  end.

(** One or more digits, a point and two digits. *)
Definition unsigned_two_decimal_places (u : string) : bool :=
  let k := String.length u in
  let '(whole, fraction) := split_at (k - 3) u in
  (4 <=? k)%nat && all_digits whole &&
  match fraction with
  | String "." (String c1 (String c2 EmptyString)) =>
      is_digit c1 && is_digit c2
  | _ => false
  end.

(** The same after an optional minus sign. *)
Definition two_decimal_places (r : string) : bool :=
  match r with
  | String "-" r' => unsigned_two_decimal_places r'
  | _ => unsigned_two_decimal_places r
  end.

End Double.

(** ** Values

    A string stands for the UTF-8 bytes of a JavaScript string. *)

Module JS.

Import Double.

(** What a [throw] carries here.  Messages differ between engines and
    are not modelled. *)
Inductive exn : Type :=
| TypeError
| SyntaxError
| AbortError.

(** Completion of an evaluation step: a value or a thrown exception. *)
Inductive result (A : Type) : Type :=
| Normal (a : A)
| Abrupt (e : exn).

Arguments Normal {A} a.
Arguments Abrupt {A} e.

Definition rbind {A B : Type} (r : result A) (f : A -> result B)
  : result B :=
  match r with
  | Normal a => f a
  | Abrupt e => Abrupt e
  end.

(** The values [JSON.parse] builds.  An object is the list of its own
    properties; where a key occurs twice the later entry is the
    property, as in [JSON.parse]. *)
Inductive json : Type :=
| JNull
| JBool (b : bool)
| JNumber (x : number)
| JString (s : string)
| JArray (elements : list json)
| JObject (properties : list (string * json)).

Fixpoint own_property (key : string) (properties : list (string * json))
  : option json :=
  match properties with
  | [] => None
  | (k, v) :: rest =>
      match own_property key rest with
      | Some v' => Some v'
      | None => if String.eqb k key then Some v else None
      end
  end.

(** [data.quoteVolume]: [None] is [undefined].  Reading a property of
    [null] throws; numbers, booleans, strings and arrays are read
    through their prototypes, none of which has a [quoteVolume]. *)
Definition quoteVolume (data : json) : result (option json) :=
  match data with
  | JNull => Abrupt TypeError
  | JObject properties => Normal (own_property "quoteVolume" properties)
  | _ => Normal None
  end.

(** *** StringToNumber *)

Fixpoint skip (k : nat) (s : string) : string :=
  match k, s with
  | O, _ => s
  | S k', String _ s' => skip k' s'
  | S _, EmptyString => EmptyString
  end.

Definition codes (s : string) : list N :=
  List.map N_of_ascii (list_ascii_of_string s).

(** The length in bytes of the white space or line terminator character
    a string starts with: TAB, LF, VT, FF, CR, SP, U+00A0, U+1680,
    U+2000..U+200A, U+2028, U+2029, U+202F, U+205F, U+3000, U+FEFF. *)
Definition white_space_length (s : string) : option nat :=
  match codes s with
  | (9 | 10 | 11 | 12 | 13 | 32)%N :: _ => Some 1%nat
  | 0xC2%N :: 0xA0%N :: _ => Some 2%nat
  | 0xE1%N :: 0x9A%N :: 0x80%N :: _ => Some 3%nat
  | 0xE2%N :: 0x80%N :: c :: _ =>
      if ((0x80 <=? c) && (c <=? 0x8A) || (c =? 0xA8) || (c =? 0xA9)
          || (c =? 0xAF))%N
      then Some 3%nat else None
  | 0xE2%N :: 0x81%N :: 0x9F%N :: _ => Some 3%nat
  | 0xE3%N :: 0x80%N :: 0x80%N :: _ => Some 3%nat
  | 0xEF%N :: 0xBB%N :: 0xBF%N :: _ => Some 3%nat
  | _ => None
  end.

Fixpoint trim_start_fuel (fuel : nat) (s : string) : string :=
  match fuel with
  | O => s
  | S fuel' =>
      match white_space_length s with
      | Some k => trim_start_fuel fuel' (skip k s)
      | None => s
      end
  end.

Definition trim_start (s : string) : string :=
  trim_start_fuel (String.length s) s.

Definition all_white_space (s : string) : bool :=
  match trim_start s with
  | EmptyString => true
  | _ => false
  end.

Fixpoint trim_end (s : string) : string :=
  match s with
  | EmptyString => EmptyString
  | String c s' =>
      if all_white_space s then EmptyString else String c (trim_end s')
  end.

Definition trim (s : string) : string := trim_end (trim_start s).

(** The value of a digit in the given radix, if the character is one. *)
Definition digit_value (radix : N) (c : ascii) : option N :=
  let n := N_of_ascii c in
  let v :=
    if ((48 <=? n) && (n <=? 57))%N then Some (n - 48)%N
    else if ((97 <=? n) && (n <=? 102))%N then Some (n - 87)%N
    else if ((65 <=? n) && (n <=? 70))%N then Some (n - 55)%N
    else None in
  match v with
  | Some d => if (d <? radix)%N then Some d else None
  | None => None
  end.

(** Reads the longest run of digits: their value, their number, and
    the rest of the string. *)
Fixpoint take_digits (radix : N) (s : string) (acc : N) (count : nat)
  : N * nat * string :=
  match s with
  | EmptyString => (acc, count, s)
  | String c s' =>
      match digit_value radix c with
      | Some d => take_digits radix s' (acc * radix + d)%N (S count)
      | None => (acc, count, s)
      end
  end.

(** ExponentPart, or nothing, up to the end of the string. *)
Definition exponent_part_value (s : string) : option Z :=
  match s with
  | EmptyString => Some 0
  | String c s' =>
      if (Ascii.eqb c "e" || Ascii.eqb c "E")%bool then
        let '(neg, s'') :=
          match s' with
          | String "-" r => (true, r)
          | String "+" r => (false, r)
          | _ => (false, s')
          end in
        match take_digits 10 s'' 0 0 with
        | (_, O, _) => None
        | (v, _, EmptyString) => Some (cond_Zopp neg (Z.of_N v))
        | _ => None
        end
      else None
  end.

(** StrUnsignedDecimalLiteral other than [Infinity]: the digits read as
    one integer and the power of ten that scales it. *)
Definition unsigned_decimal (s : string) : option (N * Z) :=
  let '(ip, ni, r1) := take_digits 10 s 0 0 in
  match r1 with
  | String "." r2 =>
      let '(fp, nf, r3) := take_digits 10 r2 0 0 in
      match (ni + nf)%nat, exponent_part_value r3 with
      | S _, Some e =>
          Some ((ip * 10 ^ N.of_nat nf + fp)%N, e - Z.of_nat nf)
      | _, _ => None
      end
  | _ =>
      match ni, exponent_part_value r1 with
      | S _, Some e => Some (ip, e)
      | _, _ => None
      end
  end.

Definition signed_decimal (neg : bool) (s : string) : number :=
  if String.eqb s "Infinity" then S754_infinity neg
  else
    match unsigned_decimal s with
    | Some (n, e) => of_decimal neg n e
    | None => NaN
    end.

(** NonDecimalIntegerLiteral after its two-character prefix. *)
Definition non_decimal (radix : N) (s : string) : number :=
  match take_digits radix s 0 0 with
  | (v, S _, EmptyString) => of_Z (Z.of_N v)
  | _ => NaN
  end.

Definition StringToNumber (str : string) : number :=
  match trim str with
  | EmptyString => pos_zero
  | String "0" (String ("x" | "X") r) => non_decimal 16 r
  | String "0" (String ("o" | "O") r) => non_decimal 8 r
  | String "0" (String ("b" | "B") r) => non_decimal 2 r
  | String "-" r => signed_decimal true r
  | String "+" r => signed_decimal false r
  | s => signed_decimal false s
  end.

(** *** ToString and ToNumber

    Arrays are converted by [Array.prototype.join], objects by
    [Object.prototype.toString], unless the object has a property
    called [toString] of its own: a parsed value is never callable, the
    inherited [valueOf] returns the object itself, and the conversion
    throws. *)
Definition has_own (key : string) (properties : list (string * json))
  : bool :=
  match own_property key properties with
  | Some _ => true
  | None => false
  end.

Fixpoint ToString (v : json) : result string :=
  match v with
  | JNull => Normal "null"
  | JBool true => Normal "true"
  | JBool false => Normal "false"
  | JNumber x => Normal (to_string x)
  | JString s => Normal s
  | JArray elements =>
      (* Array.prototype.join: null elements give the empty string *)
      let element (x : json) : result string :=
        match x with
        | JNull => Normal ""
        | _ => ToString x
        end in
      match elements with
      | [] => Normal ""
      | x :: rest =>
          (fix join (acc : result string) (l : list json)
             : result string :=
             match l with
             | [] => acc
             | y :: l' =>
                 join (rbind acc (fun a =>
                       rbind (element y) (fun b =>
                       Normal (a ++ "," ++ b)))) l'
             end) (element x) rest
      end
  | JObject properties =>
      if has_own "toString" properties then Abrupt TypeError
      else Normal "[object Object]"
  end.

(** ToNumber of a property value, [None] being [undefined]. *)
Definition ToNumber (v : option json) : result number :=
  match v with
  | None => Normal NaN
  | Some JNull => Normal pos_zero
  | Some (JBool true) => Normal (of_Z 1)
  | Some (JBool false) => Normal pos_zero
  | Some (JNumber x) => Normal x
  | Some (JString s) => Normal (StringToNumber s)
  | Some (JArray _ as o) | Some (JObject _ as o) =>
      rbind (ToString o) (fun s => Normal (StringToNumber s))
  end.

(** The number one operand of the division contributes:
    [data.quoteVolume], converted. *)
Definition volume (data : json) : result number :=
  rbind (quoteVolume data) ToNumber.

End JS.

(** ** Programs

    The handler talks to the page it runs in and to the network.  A
    program is a tree of such steps: each node names the step and
    continues with its answer.  Calling [fetch] sends the request and
    returns a promise; [await] suspends the program until the promise
    is settled and throws if it was rejected.

    The page is taken to contain the elements the script names. *)

Import Double JS.

(** How a promise ends. *)
Inductive settled (A : Type) : Type :=
| Fulfilled (a : A)
| Rejected (e : exn).

Arguments Fulfilled {A} a.
Arguments Rejected {A} e.

(** What [fetch] resolves with.  [body] is what reading the body as
    JSON yields, [None] when the text is not valid JSON. *)
Record Response : Type := {
  status : Z;
  body : option json
}.

(** A pending promise: the answer to the [n]-th request of the run, or
    the body of a response being read. *)
Inductive promise : Type -> Type :=
| FetchPromise (n : nat) (url : string) : promise Response
| JsonPromise (response : Response) : promise json.

Variant event : Type -> Type :=
| InputValue (id : string) : event string
    (* document.getElementById(id).value *)
| CallFetch (url : string) : event (promise Response)
    (* fetch(url) *)
| CallJson (response : Response) : event (promise json)
    (* response.json() *)
| Await (T : Type) (p : promise T) : event (settled T)
    (* await p *)
| SetTextContent (id : string) (text : string) : event unit
    (* document.getElementById(id).textContent = text *)
| ConsoleError (err : exn) : event unit.
    (* console.error(err) *)

Arguments Await {T} p.

Inductive prog (A : Type) : Type :=
| Ret (a : A)
| Throw (e : exn)
| Vis (R : Type) (ev : event R) (k : R -> prog A).

Arguments Ret {A} a.
Arguments Throw {A} e.
Arguments Vis {A R} ev k.

Fixpoint bind {A B : Type} (p : prog A) (f : A -> prog B) : prog B :=
  match p with
  | Ret a => f a
  | Throw e => Throw e
  | Vis ev k => Vis ev (fun r => bind (k r) f)
  end.

(** [try { p } catch (err) { h err }] *)
Fixpoint try_catch {A : Type} (p : prog A) (h : exn -> prog A) : prog A :=
  match p with
  | Ret a => Ret a
  | Throw e => h e
  | Vis ev k => Vis ev (fun r => try_catch (k r) h)
  end.

Definition trigger {R : Type} (ev : event R) : prog R := Vis ev Ret.

Definition lift {A : Type} (r : result A) : prog A :=
  match r with
  | Normal a => Ret a
  | Abrupt e => Throw e
  end.

Notation "x <- p ;; q" := (bind p (fun x => q))
  (at level 61, p at next level, right associativity).
Notation "p ;; q" := (bind p (fun _ => q))
  (at level 61, right associativity).

(** [await call]: make the call, then wait for its promise. *)
Definition await {T : Type} (call : event (promise T)) : prog T :=
  p <- trigger call ;;
  o <- trigger (Await p) ;;
  match o with
  | Fulfilled v => Ret v
  | Rejected e => Throw e
  end.

(** ** The handler *)

Definition endpoint : string :=
  "https://api.binance.com/api/v3/ticker/24hr?symbol=".

Definition error_message : string := "Error fetching data.".

(** The template literal of the success line. *)
Definition ratio_line (crypto1 marketCapRatio crypto2 : string) : string :=
  "1 " ++ crypto1 ++ " = " ++ marketCapRatio ++ " " ++ crypto2.

(** [data1.quoteVolume / data2.quoteVolume]: both operands are read,
    then both are converted, then they are divided. *)
Definition volume_ratio (data1 data2 : json) : result number :=
  rbind (quoteVolume data1) (fun v1 =>
  rbind (quoteVolume data2) (fun v2 =>
  rbind (ToNumber v1) (fun n1 =>
  rbind (ToNumber v2) (fun n2 =>
  Normal (div n1 n2))))).

Definition try_block (crypto1 crypto2 : string) : prog unit :=
  response1 <- await (CallFetch (endpoint ++ crypto1)) ;;
  response2 <- await (CallFetch (endpoint ++ crypto2)) ;;
  data1 <- await (CallJson response1) ;;
  data2 <- await (CallJson response2) ;;
  ratio <- lift (volume_ratio data1 data2) ;;
  let marketCapRatio := toFixed 2 ratio in
  trigger (SetTextContent "crypto-data"
             (ratio_line crypto1 marketCapRatio crypto2)).

Definition catch_block (err : exn) : prog unit :=
  trigger (SetTextContent "crypto-data" error_message) ;;
  trigger (ConsoleError err).

Definition click_handler : prog unit :=
  crypto1 <- trigger (InputValue "crypto1") ;;
  crypto2 <- trigger (InputValue "crypto2") ;;
  try_catch (try_block crypto1 crypto2) catch_block.

(** ** Running a program

    The world answers: the input fields hold some text, and the [n]-th
    request of the run ([n] counted from 0), for some URL, ends some
    way.  The page collects the text of its elements and the console
    what was logged. *)

Record world : Type := {
  input_value : string -> string;
  network : nat -> string -> settled Response
}.

Record page : Type := {
  textContent : string -> string;
  console : list exn
}.

(** What an observer of the run sees, in order. *)
Inductive observation : Type :=
| Read (id value : string)
| Request (url : string)
| Settled (url : string) (outcome : settled Response)
| BodyRead (outcome : settled json)
| Wrote (id text : string)
| Logged (err : exn).

Record state : Type := {
  the_page : page;
  issued : nat;               (* requests sent so far *)
  trace : list observation    (* most recent last *)
}.

Definition observe (o : observation) (st : state) : state :=
  {| the_page := the_page st;
     issued := issued st;
     trace := (trace st ++ [o])%list |}.

Definition set_text (id text : string) (pg : page) : page :=
  {| textContent := fun i => if String.eqb i id then text
                             else textContent pg i;
     console := console pg |}.

Definition log (err : exn) (pg : page) : page :=
  {| textContent := textContent pg;
     console := (console pg ++ [err])%list |}.

Definition read_json (response : Response) : settled json :=
  match body response with
  | Some data => Fulfilled data
  | None => Rejected SyntaxError
  end.

Definition settle (w : world) {T : Type} (p : promise T) (st : state)
  : settled T * state :=
  match p in promise T return settled T * state with
  | FetchPromise n url =>
      let o := network w n url in (o, observe (Settled url o) st)
  | JsonPromise response =>
      let o := read_json response in (o, observe (BodyRead o) st)
  end.

Definition answer (w : world) {R : Type} (ev : event R) (st : state)
  : R * state :=
  match ev in event R return R * state with
  | InputValue id =>
      let v := input_value w id in (v, observe (Read id v) st)
  | CallFetch url =>
      (FetchPromise (issued st) url,
       {| the_page := the_page st;
          issued := S (issued st);
          trace := (trace st ++ [Request url])%list |})
  | CallJson response => (JsonPromise response, st)
  | Await p => settle w p st
  | SetTextContent id text =>
      (tt, {| the_page := set_text id text (the_page st);
              issued := issued st;
              trace := (trace st ++ [Wrote id text])%list |})
  | ConsoleError err =>
      (tt, {| the_page := log err (the_page st);
              issued := issued st;
              trace := (trace st ++ [Logged err])%list |})
  end.

Fixpoint run {A : Type} (w : world) (p : prog A) (st : state)
  : result A * state :=
  match p with
  | Ret a => (Normal a, st)
  | Throw e => (Abrupt e, st)
  | Vis ev k => let '(r, st') := answer w ev st in run w (k r) st'
  end.

(** One click on a page. *)
Definition click (w : world) (pg : page) : result unit * state :=
  run w click_handler {| the_page := pg; issued := 0; trace := [] |}.

(** The text of the display element after the click. *)
Definition display (w : world) (pg : page) : string :=
  textContent (the_page (snd (click w pg))) "crypto-data".

(** The URLs requested, in order. *)
Fixpoint requests (t : list observation) : list string :=
  match t with
  | [] => []
  | Request url :: t' => url :: requests t'
  | _ :: t' => requests t'
  end.

(** The texts written to the page, in order. *)
Fixpoint writes (t : list observation) : list (string * string) :=
  match t with
  | [] => []
  | Wrote id text :: t' => (id, text) :: writes t'
  | _ :: t' => writes t'
  end.

(** The requests and their answers, in order. *)
Fixpoint exchanges (t : list observation) : list observation :=
  match t with
  | [] => []
  | (Request _ | Settled _ _) as o :: t' => o :: exchanges t'
  | _ :: t' => exchanges t'
  end.

(** *** Names for one click

    The two symbols typed in, the two URLs they give, and how the
    network ends the first and the second request of the click. *)

Definition crypto1 (w : world) : string := input_value w "crypto1".
Definition crypto2 (w : world) : string := input_value w "crypto2".

Definition url1 (w : world) : string := endpoint ++ crypto1 w.
Definition url2 (w : world) : string := endpoint ++ crypto2 w.

Definition response1 (w : world) : settled Response := network w 0 (url1 w).
Definition response2 (w : world) : settled Response := network w 1 (url2 w).

(** Which part of a promise's end the handler can tell apart: that it
    was rejected, or the body it was fulfilled with. *)
Definition seen (o : settled Response) : option (option json) :=
  match o with
  | Fulfilled r => Some (body r)
  | Rejected _ => None
  end.

(** *** The run in closed form *)

Definition reads (w : world) : list observation :=
  [Read "crypto1" (crypto1 w); Read "crypto2" (crypto2 w)].

Definition exchange1 (w : world) : list observation :=
  [Request (url1 w); Settled (url1 w) (response1 w)].

Definition exchange2 (w : world) : list observation :=
  [Request (url2 w); Settled (url2 w) (response2 w)].

(** What the catch block leaves. *)
Definition failed (pg : page) (err : exn) (n : nat)
  (t : list observation) : result unit * state :=
  (Normal tt,
   {| the_page := log err (set_text "crypto-data" error_message pg);
      issued := n;
      trace := (t ++ [Wrote "crypto-data" error_message; Logged err])%list |}).

(** What a completed try block leaves. *)
Definition shown (pg : page) (text : string) (t : list observation)
  : result unit * state :=
  (Normal tt,
   {| the_page := set_text "crypto-data" text pg;
      issued := 2;
      trace := (t ++ [Wrote "crypto-data" text])%list |}).

Definition after_bodies (w : world) (pg : page) (r1 r2 : Response)
  : result unit * state :=
  let t2 := (reads w ++ exchange1 w ++ exchange2 w)%list in
  match read_json r1 with
  | Rejected e => failed pg e 2 (t2 ++ [BodyRead (Rejected e)])
  | Fulfilled data1 =>
      let t3 := (t2 ++ [BodyRead (Fulfilled data1)])%list in
      match read_json r2 with
      | Rejected e => failed pg e 2 (t3 ++ [BodyRead (Rejected e)])
      | Fulfilled data2 =>
          let t4 := (t3 ++ [BodyRead (Fulfilled data2)])%list in
          match volume_ratio data1 data2 with
          | Abrupt e => failed pg e 2 t4
          | Normal ratio =>
              shown pg (ratio_line (crypto1 w) (toFixed 2 ratio)
                          (crypto2 w)) t4
          end
      end
  end.

Definition closed_form (w : world) (pg : page) : result unit * state :=
  match response1 w with
  | Rejected e => failed pg e 1 (reads w ++ exchange1 w)
  | Fulfilled r1 =>
      match response2 w with
      | Rejected e =>
          failed pg e 2 (reads w ++ exchange1 w ++ exchange2 w)
      | Fulfilled r2 => after_bodies w pg r1 r2
      end
  end.

(** *** Worlds to try the handler on *)

(** The given symbols in the fields, the given ends of the first and of
    the second request. *)
Definition make_world (symbol1 symbol2 : string)
  (first second : settled Response) : world :=
  {| input_value := fun id =>
       if String.eqb id "crypto1" then symbol1 else symbol2;
     network := fun n _ =>
       match n with
       | O => first
       | _ => second
       end |}.

Definition respond (code : Z) (data : json) : settled Response :=
  Fulfilled {| status := code; body := Some data |}.

Definition ticker (symbol : string) (quote_volume : json) : json :=
  JObject [("symbol", JString symbol); ("quoteVolume", quote_volume)].

Definition blank : page := {| textContent := fun _ => ""; console := [] |}.

Definition btc (quote_volume : json) : settled Response :=
  respond 200 (ticker "BTCUSDT" quote_volume).

Definition eth (quote_volume : json) : settled Response :=
  respond 200 (ticker "ETHUSDT" quote_volume).

(** Volumes 1000 and 500. *)
Definition example_world : world :=
  make_world "BTCUSDT" "ETHUSDT"
    (btc (JNumber (of_Z 1000))) (eth (JNumber (of_Z 500))).

(** Volumes [1e21] and 1. *)
Definition huge_ratio_world : world :=
  make_world "BTCUSDT" "ETHUSDT"
    (btc (JNumber (of_decimal false 1 21))) (eth (JNumber (of_Z 1))).

(** The first request is answered with status 500 and an error
    document. *)
Definition server_error_world : world :=
  make_world "BTCUSDT" "ETHUSDT"
    (respond 500
       (JObject [("code", JNumber (of_Z (-1000)));
                 ("msg", JString "An unknown error occurred.")]))
    (eth (JNumber (of_Z 500))).

(** The first document has no [quoteVolume]. *)
Definition missing_field_world : world :=
  make_world "BTCUSDT" "ETHUSDT"
    (respond 200 (JObject [("symbol", JString "BTCUSDT")]))
    (eth (JNumber (of_Z 500))).

(** The second volume is zero. *)
Definition zero_volume_world : world :=
  make_world "BTCUSDT" "ETHUSDT"
    (btc (JNumber (of_Z 1000))) (eth (JNumber (of_Z 0))).

(** The second body is not JSON. *)
Definition bad_json_world : world :=
  make_world "BTCUSDT" "ETHUSDT"
    (btc (JNumber (of_Z 1000)))
    (Fulfilled {| status := 200; body := None |}).

(** The first request fails. *)
Definition offline_world : world :=
  make_world "BTCUSDT" "ETHUSDT"
    (Rejected TypeError) (eth (JNumber (of_Z 500))).

(** Both fields are empty. *)
Definition empty_fields_world : world :=
  make_world "" "" (btc (JNumber (of_Z 1000))) (eth (JNumber (of_Z 500))).

(** The same fields and answers as [example_world]; any further
    request would fail, and the other fields hold something. *)
Definition other_world : world :=
  {| input_value := fun id =>
       if String.eqb id "crypto1" then "BTCUSDT"
       else if String.eqb id "crypto2" then "ETHUSDT"
       else "unrelated";
     network := fun n _ =>
       match n with
       | 0%nat => btc (JNumber (of_Z 1000))
       | 1%nat => eth (JNumber (of_Z 500))
       | _ => Rejected AbortError
       end |}.

(** A page that has been used before. *)
Definition stale : page :=
  {| textContent := fun _ => error_message; console := [TypeError] |}.

(** *** Further vocabulary *)

(** The bodies read, in order. *)
Fixpoint body_reads (t : list observation) : list (settled json) :=
  match t with
  | [] => []
  | BodyRead o :: t' => o :: body_reads t'
  | _ :: t' => body_reads t'
  end.

(** [undefined], [null], a boolean, a number or a string. *)
Definition primitive (v : option json) : bool :=
  match v with
  | Some (JArray _) | Some (JObject _) => false
  | _ => true
  end.

(** The sign of a number that is not NaN. *)
Definition sign_bit (x : number) : bool :=
  match x with
  | S754_zero s | S754_infinity s | S754_finite s _ _ => s
  | S754_nan => false
  end.

Definition is_infinite (x : number) : bool :=
  match x with
  | S754_infinity _ => true
  | _ => false
  end.

(** ** The run, step by step *)

Lemma run_bind {A B : Type} (w : world) (p : prog A) (f : A -> prog B)
  (st : state) :
  run w (bind p f) st =
  match run w p st with
  | (Normal a, st') => run w (f a) st'
  | (Abrupt e, st') => (Abrupt e, st')
  end.
Proof.
  revert st.
  induction p as [a | e | R ev k IH]; intros st; simpl; try reflexivity.
  destruct (answer w ev st) as [r st']. apply IH.
Qed.

Lemma run_try_catch {A : Type} (w : world) (p : prog A)
  (h : exn -> prog A) (st : state) :
  run w (try_catch p h) st =
  match run w p st with
  | (Normal a, st') => (Normal a, st')
  | (Abrupt e, st') => run w (h e) st'
  end.
Proof.
  revert st.
  induction p as [a | e | R ev k IH]; intros st; simpl; try reflexivity.
  destruct (answer w ev st) as [r st']. apply IH.
Qed.

Lemma click_closed_form (w : world) (pg : page) :
  click w pg = closed_form w pg.
Proof.
  unfold click, closed_form, after_bodies, response1, response2,
    exchange1, exchange2, reads, url1, url2, crypto1, crypto2,
    response1, response2, url1, url2, crypto1, crypto2.
  destruct w as [value net].
  cbv - [endpoint String.append toFixed volume_ratio read_json
         ratio_line error_message].
  destruct (net 0%nat _) as [r1 | e1]; [| reflexivity].
  destruct (net 1%nat _) as [r2 | e2]; [| reflexivity].
  destruct (read_json r1) as [data1 | e]; [| reflexivity].
  destruct (read_json r2) as [data2 | e]; [| reflexivity].
  destruct (volume_ratio data1 data2) as [ratio | e]; reflexivity.
Qed.

(** ** Facts about strings and digits *)

Lemma is_digit_digit_char d : 0 <= d < 10 -> is_digit (digit_char d) = true.
Proof.
  intros H.
  assert (E : d = 0 \/ d = 1 \/ d = 2 \/ d = 3 \/ d = 4 \/ d = 5 \/ d = 6
              \/ d = 7 \/ d = 8 \/ d = 9) by lia.
  repeat (destruct E as [-> | E]; [reflexivity |]). subst d. reflexivity.
Qed.

Lemma append_assoc (a b c : string) : (a ++ b) ++ c = a ++ b ++ c.
Proof. induction a as [| x a IH]; simpl; [reflexivity | now rewrite IH]. Qed.

Lemma append_nil_r (a : string) : a ++ "" = a.
Proof. induction a as [| x a IH]; simpl; [reflexivity | now rewrite IH]. Qed.

Lemma length_append (a b : string) :
  String.length (a ++ b) = (String.length a + String.length b)%nat.
Proof. induction a as [| x a IH]; simpl; [reflexivity | now rewrite IH]. Qed.

Lemma all_digits_append a b :
  all_digits (a ++ b) = all_digits a && all_digits b.
Proof.
  induction a as [| x a IH]; simpl; [reflexivity |].
  now rewrite IH, andb_assoc.
Qed.

Lemma split_at_append (a b : string) :
  split_at (String.length a) (a ++ b) = (a, b).
Proof. induction a as [| x a IH]; simpl; [reflexivity | now rewrite IH]. Qed.

Lemma digits_fuel_acc fuel : forall n acc,
  digits_fuel fuel n acc = digits_fuel fuel n "" ++ acc.
Proof.
  induction fuel as [| fuel IH]; intros n acc; simpl; [reflexivity |].
  destruct (n <? 10); [reflexivity |].
  rewrite IH, (IH _ (String _ "")), append_assoc. reflexivity.
Qed.

Lemma digits_fuel_enough f1 : forall f2 n acc,
  0 <= n < 10 ^ Z.of_nat (S f1) -> n < 10 ^ Z.of_nat (S f2) ->
  digits_fuel (S f1) n acc = digits_fuel (S f2) n acc.
Proof.
  induction f1 as [| f1 IH]; intros f2 n acc H1 H2.
  - change (10 ^ Z.of_nat 1) with 10 in H1.
    simpl. destruct (n <? 10) eqn:E; [reflexivity |].
    apply Z.ltb_ge in E. lia.
  - cbn [digits_fuel]. destruct (n <? 10) eqn:E; [reflexivity |].
    apply Z.ltb_ge in E.
    destruct f2 as [| f2]; [change (10 ^ Z.of_nat 1) with 10 in H2; lia |].
    rewrite Nat2Z.inj_succ, Z.pow_succ_r in H1, H2 by lia.
    apply IH.
    + split; [apply Z.div_pos; lia | apply Z.div_lt_upper_bound; lia].
    + apply Z.div_lt_upper_bound; lia.
Qed.

Lemma lt_pow10_log2 n : 0 <= n -> n < 10 ^ Z.of_nat (S (Z.to_nat (Z.log2 n))).
Proof.
  intros H. rewrite Nat2Z.inj_succ, Z2Nat.id by apply Z.log2_nonneg.
  destruct (Z.eq_dec n 0) as [-> | N]; [reflexivity |].
  assert (n < 2 ^ Z.succ (Z.log2 n)) by (apply Z.log2_spec; lia).
  assert (2 ^ Z.succ (Z.log2 n) <= 10 ^ Z.succ (Z.log2 n)).
  { apply Z.pow_le_mono_l. lia. }
  lia.
Qed.

Lemma digits_small n : 0 <= n < 10 -> digits n = String (digit_char n) "".
Proof.
  intros H. unfold digits. simpl.
  destruct (n <? 10) eqn:E; [| apply Z.ltb_ge in E; lia].
  rewrite Z.mod_small by lia. reflexivity.
Qed.

Lemma digits_step n :
  10 <= n -> digits n = digits (n / 10) ++ String (digit_char (n mod 10)) "".
Proof.
  intros H. unfold digits at 1. cbn [digits_fuel].
  destruct (n <? 10) eqn:E; [apply Z.ltb_lt in E; lia |].
  rewrite digits_fuel_acc. f_equal.
  unfold digits.
  assert (Hn : n < 10 ^ Z.of_nat (S (Z.to_nat (Z.log2 n))))
    by (apply lt_pow10_log2; lia).
  rewrite Nat2Z.inj_succ, Z.pow_succ_r in Hn by lia.
  assert (0 <= n / 10) by (apply Z.div_pos; lia).
  assert (L : (0 < Z.to_nat (Z.log2 n))%nat).
  { assert (1 <= Z.log2 n) by (apply Z.log2_le_pow2; simpl; lia). lia. }
  destruct (Z.to_nat (Z.log2 n)) as [| k] eqn:K; [lia |].
  symmetry. apply digits_fuel_enough.
  - split; [assumption | apply lt_pow10_log2; assumption].
  - apply Z.div_lt_upper_bound; lia.
Qed.

Lemma digits_all_digits n : 0 <= n -> all_digits (digits n) = true.
Proof.
  intros H.
  assert (B : n < 10 ^ Z.of_nat (S (Z.to_nat (Z.log2 n))))
    by (apply lt_pow10_log2; assumption).
  remember (S (Z.to_nat (Z.log2 n))) as k eqn:K. clear K.
  revert n H B.
  induction k as [| k IH]; intros n H B.
  - simpl in B. assert (n = 0) by lia. subst. reflexivity.
  - destruct (Z_lt_le_dec n 10) as [S | L].
    + rewrite digits_small by lia. simpl.
      rewrite is_digit_digit_char by lia. reflexivity.
    + rewrite digits_step, all_digits_append by assumption. simpl.
      rewrite is_digit_digit_char by (apply Z.mod_pos_bound; lia).
      rewrite Nat2Z.inj_succ, Z.pow_succ_r in B by lia.
      rewrite IH; [reflexivity | apply Z.div_pos; lia
                  | apply Z.div_lt_upper_bound; lia].
Qed.

Lemma digits_nonempty n : 0 <= n -> (1 <= String.length (digits n))%nat.
Proof.
  intros H. destruct (Z_lt_le_dec n 10) as [S | L].
  - rewrite digits_small by lia. simpl. lia.
  - rewrite digits_step, length_append by assumption. simpl. lia.
Qed.

Lemma fixed_digits_2 n :
  0 <= n -> fixed_digits 2 n = fixed_point_2 false n.
Proof.
  intros H. unfold fixed_digits, fixed_point_2.
  destruct (Z_lt_le_dec n 10) as [S | L].
  - rewrite (digits_small n) by lia.
    rewrite !Z.div_small by lia. rewrite Z.mod_0_l by lia.
    rewrite Z.mod_small by lia. reflexivity.
  - assert (0 <= n / 10) by (apply Z.div_pos; lia).
    rewrite (digits_step n) by assumption.
    destruct (Z_lt_le_dec n 100) as [S | L'].
    + assert (n / 10 < 10) by (apply Z.div_lt_upper_bound; lia).
      rewrite (digits_small (n / 10)) by lia.
      rewrite (Z.div_small n 100) by lia.
      rewrite (Z.mod_small (n / 10)) by lia. reflexivity.
    + assert (10 <= n / 10) by (apply Z.div_le_lower_bound; lia).
      rewrite (digits_step (n / 10)) by assumption.
      rewrite Z.div_div by lia. change (10 * 10) with 100.
      rewrite append_assoc. simpl (String _ "" ++ _).
      assert (N := digits_nonempty (n / 100)
                     ltac:(apply Z.div_pos; lia)).
      rewrite length_append.
      change (String.length (String _ (String _ ""))) with 2%nat.
      destruct (_ <=? 2)%nat eqn:E; [apply Nat.leb_le in E; lia |].
      rewrite length_append.
      change (String.length (String _ (String _ ""))) with 2%nat.
      replace (String.length (digits (n / 100)) + 2 - 2)%nat
        with (String.length (digits (n / 100))) by lia.
      rewrite split_at_append. reflexivity.
Qed.

Lemma fixed_point_2_two_decimal_places neg n :
  0 <= n -> two_decimal_places (fixed_point_2 neg n) = true.
Proof.
  intros H. unfold fixed_point_2.
  assert (Q : 0 <= n / 100) by (apply Z.div_pos; lia).
  assert (N := digits_nonempty _ Q).
  assert (A := digits_all_digits _ Q).
  set (ds := digits (n / 100)) in *.
  set (frac := "." ++ _).
  assert (U : unsigned_two_decimal_places (ds ++ frac) = true).
  { unfold unsigned_two_decimal_places.
    rewrite length_append.
    replace (String.length ds + String.length frac - 3)%nat
      with (String.length ds) by (subst frac; simpl; lia).
    rewrite split_at_append, A. subst frac. cbn [String.length append].
    rewrite !is_digit_digit_char by (apply Z.mod_pos_bound; lia).
    rewrite !andb_true_r. apply Nat.leb_le. lia. }
  destruct neg; [exact U |].
  cbn [append]. unfold two_decimal_places.
  destruct ds as [| c ds']; [simpl in N; lia |].
  simpl in A. apply andb_prop in A as [Ac _].
  cbn [append] in *.
  destruct c as [[] [] [] [] [] [] [] []]; try exact U.
  discriminate Ac.
Qed.

Lemma fixed_integer_nonneg f m e : 0 <= fixed_integer f m e.
Proof.
  unfold fixed_integer. destruct (0 <=? e) eqn:E.
  - apply Z.leb_le in E.
    assert (0 < 2 ^ e) by (apply Z.pow_pos_nonneg; lia).
    assert (0 < 10 ^ Z.of_nat f) by (apply Z.pow_pos_nonneg; lia).
    nia.
  - apply Z.leb_gt in E.
    assert (0 < 2 ^ (- e)) by (apply Z.pow_pos_nonneg; lia).
    assert (0 < 10 ^ Z.of_nat f) by (apply Z.pow_pos_nonneg; lia).
    apply Z.div_pos; nia.
Qed.

Lemma toFixed_2_fixed_point x :
  below_1e21 x = true ->
  toFixed 2 x = fixed_point_2 (is_negative x) (hundredths x).
Proof.
  destruct x as [s | s | | s m e]; try discriminate; intros B.
  - reflexivity.
  - cbn [below_1e21] in B. apply negb_true_iff in B.
    unfold toFixed. rewrite B.
    rewrite fixed_digits_2 by apply fixed_integer_nonneg.
    cbn [is_negative hundredths]. unfold fixed_point_2.
    destruct s; reflexivity.
Qed.

Lemma hundredths_nearest x :
  is_finite x = true -> nearest_hundredth (hundredths x) x.
Proof.
  destruct x as [s | s | | s m e]; try discriminate; intros _.
  - split; [reflexivity | discriminate].
  - unfold nearest_hundredth, hundredths, magnitude, fixed_integer.
    change (10 ^ Z.of_nat 2) with 100.
    destruct (0 <=? e) eqn:E.
    + unfold Qlt, Qle, Qminus, Qplus, Qopp, Qmult, inject_Z.
      cbn [Qnum Qden]. rewrite ?Pos2Z.inj_mul. lia.
    + apply Z.leb_gt in E.
      assert (P : 0 < 2 ^ (- e)) by (apply Z.pow_pos_nonneg; lia).
      set (d := 2 ^ (- e)) in *.
      assert (D := Z.div_mod (2 * (Z.pos m * 100) + d) (2 * d)
                     ltac:(lia)).
      assert (M := Z.mod_pos_bound (2 * (Z.pos m * 100) + d) (2 * d)
                     ltac:(lia)).
      set (n := (2 * (Z.pos m * 100) + d) / (2 * d)) in *.
      unfold Qlt, Qle, Qminus, Qplus, Qopp, Qmult, inject_Z.
      cbn [Qnum Qden]. rewrite ?Pos2Z.inj_mul, ?Z2Pos.id by lia.
      nia.
Qed.

(** The two bounds leave room for one integer only. *)
Lemma nearest_hundredth_unique n n' x :
  nearest_hundredth n x -> nearest_hundredth n' x -> n = n'.
Proof.
  unfold nearest_hundredth.
  generalize (100 * magnitude x)%Q. intros [p q] [L U] [L' U'].
  unfold Qlt, Qle, Qminus, Qplus, Qopp, Qmult, inject_Z in *.
  cbn [Qnum Qden] in *. rewrite ?Pos2Z.inj_mul in *.
  assert (0 < Z.pos q) by lia. nia.
Qed.

(** ** Facts about the numbers *)

Lemma append_cancel_r (a b t : string) : a ++ t = b ++ t -> a = b.
Proof.
  revert b. induction a as [| x a IH]; intros [| y b] E; simpl in E.
  - reflexivity.
  - apply (f_equal String.length) in E. simpl in E.
    rewrite length_append in E. lia.
  - apply (f_equal String.length) in E. simpl in E.
    rewrite length_append in E. lia.
  - injection E as -> E. f_equal. apply IH, E.
Qed.

Lemma below_1e21_finite x : below_1e21 x = true -> is_finite x = true.
Proof. destruct x; simpl; intros H; (reflexivity || discriminate H). Qed.

Lemma hundredths_nonneg x : 0 <= hundredths x.
Proof. destruct x; simpl; try lia. apply fixed_integer_nonneg. Qed.

(** Dividing by a zero never gives a finite number. *)
Lemma div_by_zero_not_finite x y :
  is_zero y = true -> is_finite (div x y) = false.
Proof.
  destruct y as [sy | sy | | sy my ey]; try discriminate; intros _.
  destruct x; reflexivity.
Qed.

Lemma toFixed_not_finite f x :
  is_finite x = false ->
  toFixed f x = to_string x /\
  (to_string x = "NaN" \/ to_string x = "Infinity"
   \/ to_string x = "-Infinity").
Proof.
  destruct x as [s | [] | | s m e]; try discriminate; intros _;
    split; auto.
Qed.

(** ** Facts about the conversions *)

Lemma volume_of_number data x :
  quoteVolume data = Normal (Some (JNumber x)) -> volume data = Normal x.
Proof. unfold volume. intros ->. reflexivity. Qed.

Lemma volume_of_missing properties :
  own_property "quoteVolume" properties = None ->
  volume (JObject properties) = Normal NaN.
Proof. unfold volume, quoteVolume. intros ->. reflexivity. Qed.

Lemma volume_ratio_volumes data1 data2 n1 n2 :
  volume data1 = Normal n1 -> volume data2 = Normal n2 ->
  volume_ratio data1 data2 = Normal (div n1 n2).
Proof.
  unfold volume, volume_ratio.
  destruct (quoteVolume data1) as [v1 | e1]; [| discriminate].
  destruct (quoteVolume data2) as [v2 | e2]; [| discriminate].
  cbn [rbind]. intros -> ->. reflexivity.
Qed.

Lemma volume_ratio_null data1 data2 :
  data1 = JNull \/ data2 = JNull ->
  volume_ratio data1 data2 = Abrupt TypeError.
Proof.
  intros [-> | ->]; [reflexivity |].
  unfold volume_ratio. destruct data1; reflexivity.
Qed.

Lemma div_nan_l y : div NaN y = NaN.
Proof. destruct y; reflexivity. Qed.

Lemma div_nan_r x : div x NaN = NaN.
Proof. destruct x; reflexivity. Qed.

Lemma is_nan_eq x : is_nan x = true -> x = NaN.
Proof. destruct x; (reflexivity || discriminate). Qed.

(** ** Facts about one click *)

(** Splits a goal about [click w pg] into the six ways a click can go:
    the first or the second request rejected, the first or the second
    body unreadable, the division throwing, the try block completing. *)
Ltac click_cases w :=
  rewrite ?click_closed_form;
  unfold closed_form, after_bodies, exchange1, exchange2, read_json;
  destruct (response1 w) as [r1 | e1];
  [ destruct (response2 w) as [r2 | e2];
    [ destruct (body r1) as [data1 |] eqn:B1;
      [ destruct (body r2) as [data2 |] eqn:B2;
        [ destruct (volume_ratio data1 data2) as [ratio | e] eqn:V
        | ]
      | ]
    | ]
  | ].

Lemma display_failed pg e n t :
  textContent (the_page (snd (failed pg e n t))) "crypto-data"
  = error_message.
Proof. reflexivity. Qed.

Lemma display_shown pg text t :
  textContent (the_page (snd (shown pg text t))) "crypto-data" = text.
Proof. reflexivity. Qed.

Lemma ratio_line_not_error a r b : ratio_line a r b <> error_message.
Proof. discriminate. Qed.

Section OneClick.

Variable w : world.
Variable pg : page.

(** A click whose try block completes shows the ratio. *)
Lemma display_success r1 r2 data1 data2 ratio :
  response1 w = Fulfilled r1 -> response2 w = Fulfilled r2 ->
  body r1 = Some data1 -> body r2 = Some data2 ->
  volume_ratio data1 data2 = Normal ratio ->
  display w pg = ratio_line (crypto1 w) (toFixed 2 ratio) (crypto2 w).
Proof.
  intros H1 H2 B1 B2 V. unfold display.
  rewrite click_closed_form. unfold closed_form, after_bodies, read_json.
  rewrite H1, H2, B1, B2, V. apply display_shown.
Qed.

(** A click whose try block throws shows the message, and only it. *)
Lemma click_failure :
  (exists e, response1 w = Rejected e) \/
  (exists e, response2 w = Rejected e) \/
  (exists r1, response1 w = Fulfilled r1 /\ body r1 = None) \/
  (exists r2, response2 w = Fulfilled r2 /\ body r2 = None) \/
  (exists r1 r2 data1 data2 e,
      response1 w = Fulfilled r1 /\ response2 w = Fulfilled r2 /\
      body r1 = Some data1 /\ body r2 = Some data2 /\
      volume_ratio data1 data2 = Abrupt e) ->
  display w pg = error_message /\
  writes (trace (snd (click w pg))) = [("crypto-data", error_message)].
Proof.
  intros H. unfold display. click_cases w; try (split; reflexivity).
  exfalso.
  destruct H as [[e H] | [[e H] | [[r [H B]] | [[r [H B]] | H]]]];
    try discriminate H.
  - injection H as <-. congruence.
  - injection H as <-. congruence.
  - destruct H as (r1' & r2' & d1 & d2 & e & H1 & H2 & B1' & B2' & V').
    injection H1 as <-. injection H2 as <-. congruence.
Qed.

End OneClick.

(** What is shown depends on the two symbols and on what [seen] keeps
    of the two answers, and on nothing else. *)
Lemma display_depends_on_seen w w' pg pg' :
  crypto1 w = crypto1 w' -> crypto2 w = crypto2 w' ->
  seen (response1 w) = seen (response1 w') ->
  seen (response2 w) = seen (response2 w') ->
  display w pg = display w' pg'.
Proof.
  intros C1 C2 S1 S2. unfold display. rewrite !click_closed_form.
  unfold closed_form, after_bodies, read_json.
  destruct (response1 w) as [r1 | e1], (response1 w') as [r1' | e1'];
    try discriminate S1; [| reflexivity].
  destruct (response2 w) as [r2 | e2], (response2 w') as [r2' | e2'];
    try discriminate S2; [| reflexivity].
  simpl in S1, S2. injection S1 as ->. injection S2 as ->.
  destruct (body r1') as [data1 |]; [| reflexivity].
  destruct (body r2') as [data2 |]; [| reflexivity].
  destruct (volume_ratio data1 data2) as [ratio | e]; [| reflexivity].
  rewrite !display_shown, C1, C2. reflexivity.
Qed.

(** ** The handler on sample inputs *)

Example number_from_text :
  StringToNumber " 12.50 " = of_decimal false 125 (-1) /\
  StringToNumber "" = pos_zero /\
  StringToNumber "0x1F" = of_Z 31 /\
  StringToNumber "1e3" = of_Z 1000 /\
  StringToNumber "12,5" = NaN /\
  StringToNumber "abc" = NaN.
Proof. repeat split; reflexivity. Qed.

Example text_from_number :
  to_string (of_decimal false 1 21) = "1e+21" /\
  to_string (of_decimal false 1 (-7)) = "1e-7" /\
  to_string (of_decimal false 15 (-1)) = "1.5" /\
  to_string (div (of_Z 1) (of_Z 3)) = "0.3333333333333333" /\
  to_string (of_decimal true 123456789012345678901 0)
  = "-123456789012345680000".
Proof. repeat split; vm_compute; reflexivity. Qed.

Example fixed_notation :
  toFixed 2 (of_decimal false 1005 (-3)) = "1.00" /\
  toFixed 2 (of_decimal false 8345 (-3)) = "8.35" /\
  toFixed 2 (of_decimal true 4 (-3)) = "-0.00" /\
  toFixed 2 (of_decimal false 1 20) = "100000000000000000000.00" /\
  toFixed 2 (of_decimal false 1 21) = "1e+21".
Proof. repeat split; vm_compute; reflexivity. Qed.

Example volumes_as_the_exchange_sends_them :
  display
    (make_world "BTCUSDT" "ETHUSDT"
       (btc (JString "1000.00000000")) (eth (JString "500.00000000")))
    blank
  = "1 BTCUSDT = 2.00 ETHUSDT".
Proof. vm_compute. reflexivity. Qed.

Example volume_that_is_no_number :
  volume (ticker "BTCUSDT" (JString "n/a")) = Normal NaN /\
  volume (ticker "BTCUSDT" (JObject [])) = Normal NaN /\
  volume (ticker "BTCUSDT" JNull) = Normal pos_zero /\
  volume (ticker "BTCUSDT" (JArray [JString "7"])) = Normal (of_Z 7) /\
  volume (ticker "BTCUSDT" (JObject [("toString", JNull)]))
  = Abrupt TypeError.
Proof. repeat split; reflexivity. Qed.

(** The interpreter does not impose an order on the requests: a
    program that calls [fetch] twice before it awaits has both requests
    out before either answer. *)
Example requests_may_overlap :
  exchanges
    (trace (snd (run example_world
                   (p1 <- trigger (CallFetch "a") ;;
                    p2 <- trigger (CallFetch "b") ;;
                    trigger (Await p1) ;;
                    trigger (Await p2))
                   {| the_page := blank; issued := 0; trace := [] |})))
  = [Request "a"; Request "b";
     Settled "a" (btc (JNumber (of_Z 1000)));
     Settled "b" (eth (JNumber (of_Z 500)))].
Proof. reflexivity. Qed.

(** ** The claims *)

(** C1, amended.  When both requests are answered, both bodies parse
    and both documents carry a number [vA], [vB] as [quoteVolume], with
    [vB] not zero and the quotient [vA / vB] finite and below [10^21]
    in magnitude, the display is set to "1 A = r B" where [r] is the
    quotient in fixed-point notation with exactly two decimals: its
    sign, then the hundredths nearest to its magnitude (a tie going
    up).  In particular volumes 1000 and 500 for BTCUSDT and ETHUSDT
    give "1 BTCUSDT = 2.00 ETHUSDT". *)
Theorem ratio_displayed :
  (forall (w : world) (pg : page) (r1 r2 : Response) (data1 data2 : json)
          (vA vB : number),
      response1 w = Fulfilled r1 -> response2 w = Fulfilled r2 ->
      body r1 = Some data1 -> body r2 = Some data2 ->
      quoteVolume data1 = Normal (Some (JNumber vA)) ->
      quoteVolume data2 = Normal (Some (JNumber vB)) ->
      is_zero vB = false ->
      below_1e21 (div vA vB) = true ->
      display w pg
      = ratio_line (crypto1 w)
          (fixed_point_2 (is_negative (div vA vB)) (hundredths (div vA vB)))
          (crypto2 w)
      /\ nearest_hundredth (hundredths (div vA vB)) (div vA vB)
      /\ two_decimal_places
           (fixed_point_2 (is_negative (div vA vB))
              (hundredths (div vA vB))) = true)
  /\
  (forall (w : world) (pg : page) (r1 r2 : Response) (data1 data2 : json),
      crypto1 w = "BTCUSDT" -> crypto2 w = "ETHUSDT" ->
      response1 w = Fulfilled r1 -> response2 w = Fulfilled r2 ->
      body r1 = Some data1 -> body r2 = Some data2 ->
      quoteVolume data1 = Normal (Some (JNumber (of_Z 1000))) ->
      quoteVolume data2 = Normal (Some (JNumber (of_Z 500))) ->
      display w pg = "1 BTCUSDT = 2.00 ETHUSDT").
Proof.
  assert (G : forall w pg r1 r2 data1 data2 vA vB,
             response1 w = Fulfilled r1 -> response2 w = Fulfilled r2 ->
             body r1 = Some data1 -> body r2 = Some data2 ->
             quoteVolume data1 = Normal (Some (JNumber vA)) ->
             quoteVolume data2 = Normal (Some (JNumber vB)) ->
             display w pg
             = ratio_line (crypto1 w) (toFixed 2 (div vA vB)) (crypto2 w)).
  { intros w pg r1 r2 data1 data2 vA vB H1 H2 B1 B2 Q1 Q2.
    apply (display_success w pg r1 r2 data1 data2); try assumption.
    apply volume_ratio_volumes; apply volume_of_number; assumption. }
  split.
  - intros w pg r1 r2 data1 data2 vA vB H1 H2 B1 B2 Q1 Q2 _ L.
    rewrite <- (toFixed_2_fixed_point _ L).
    split; [eapply G; eassumption |].
    split.
    + apply hundredths_nearest, below_1e21_finite, L.
    + rewrite (toFixed_2_fixed_point _ L).
      apply fixed_point_2_two_decimal_places, hundredths_nonneg.
  - intros w pg r1 r2 data1 data2 A B H1 H2 B1 B2 Q1 Q2.
    rewrite (G w pg r1 r2 data1 data2 _ _ H1 H2 B1 B2 Q1 Q2), A, B.
    reflexivity.
Qed.

Lemma ratio_displayed_witness :
  is_zero (of_Z 500) = false /\
  below_1e21 (div (of_Z 1000) (of_Z 500)) = true /\
  display example_world blank = "1 BTCUSDT = 2.00 ETHUSDT".
Proof.
  split; [reflexivity |]. split; [reflexivity |].
  refine (proj1 (proj1 ratio_displayed example_world blank
                   _ _ _ _ (of_Z 1000) (of_Z 500) _ _ _ _ _ _ _ _));
    reflexivity.
Defined.

(** C1 as written fails: volumes [1e21] and 1 are numbers, the second
    is not zero, and the display is "1 BTCUSDT = 1e+21 ETHUSDT", which
    is "1 A = r B" for no [r] with two decimal places. *)
Lemma ratio_not_always_two_decimals :
  (exists r1 r2 data1 data2 vA vB,
      response1 huge_ratio_world = Fulfilled r1 /\
      response2 huge_ratio_world = Fulfilled r2 /\
      body r1 = Some data1 /\ body r2 = Some data2 /\
      quoteVolume data1 = Normal (Some (JNumber vA)) /\
      quoteVolume data2 = Normal (Some (JNumber vB)) /\
      is_double vA = true /\ is_double vB = true /\
      is_zero vB = false) /\
  display huge_ratio_world blank = "1 BTCUSDT = 1e+21 ETHUSDT" /\
  ~ (exists r, two_decimal_places r = true /\
               display huge_ratio_world blank
               = ratio_line "BTCUSDT" r "ETHUSDT").
Proof.
  split.
  { do 6 eexists. repeat split; reflexivity. }
  assert (D : display huge_ratio_world blank = "1 BTCUSDT = 1e+21 ETHUSDT")
    by (vm_compute; reflexivity).
  split; [exact D |].
  intros [r [T E]]. rewrite D in E.
  change "1 BTCUSDT = 1e+21 ETHUSDT"
    with (ratio_line "BTCUSDT" "1e+21" "ETHUSDT") in E.
  unfold ratio_line in E. cbn [append] in E.
  injection E as E.
  apply (append_cancel_r "1e+21" r " ETHUSDT") in E. subst r.
  discriminate T.
Qed.

(** C2, amended.  When either fetch is rejected, the display is set to
    exactly "Error fetching data." and nothing else is written.  The
    status of an answer plays no part: two clicks whose answers differ
    only in their status show the same text. *)
Theorem fetch_failure_shows_error :
  (forall (w : world) (pg : page) (e : exn),
      response1 w = Rejected e \/ response2 w = Rejected e ->
      display w pg = error_message /\
      writes (trace (snd (click w pg))) = [("crypto-data", error_message)])
  /\
  (forall (w w' : world) (pg : page) (r1 r2 r1' r2' : Response),
      crypto1 w = crypto1 w' -> crypto2 w = crypto2 w' ->
      response1 w = Fulfilled r1 -> response1 w' = Fulfilled r1' ->
      response2 w = Fulfilled r2 -> response2 w' = Fulfilled r2' ->
      body r1 = body r1' -> body r2 = body r2' ->
      display w pg = display w' pg).
Proof.
  split.
  - intros w pg e [H | H]; apply click_failure; eauto.
  - intros w w' pg r1 r2 r1' r2' C1 C2 H1 H1' H2 H2' B1 B2.
    apply display_depends_on_seen; try assumption.
    + rewrite H1, H1'. simpl. congruence.
    + rewrite H2, H2'. simpl. congruence.
Qed.

Lemma fetch_failure_witness :
  response1 offline_world = Rejected TypeError /\
  display offline_world blank = error_message.
Proof.
  split; [reflexivity |].
  apply (proj1 fetch_failure_shows_error offline_world blank TypeError).
  left. reflexivity.
Defined.

(** C2 as written fails: the first answer has status 500, and the
    display is "1 BTCUSDT = NaN ETHUSDT", not the message. *)
Lemma server_error_not_reported :
  (exists r1, response1 server_error_world = Fulfilled r1 /\
              status r1 = 500) /\
  display server_error_world blank = "1 BTCUSDT = NaN ETHUSDT" /\
  display server_error_world blank <> error_message.
Proof.
  split; [eexists; split; reflexivity |].
  assert (D : display server_error_world blank = "1 BTCUSDT = NaN ETHUSDT")
    by (vm_compute; reflexivity).
  split; [exact D |]. rewrite D. discriminate.
Qed.

(** C3, amended.  When both bodies parse and both volumes convert, one
    of them to NaN, the display is set to "1 A = NaN B", not to the
    message; a document without [quoteVolume] has the volume NaN.  The
    message is shown when a body parses to [null]. *)
Theorem missing_volume_shows_NaN :
  (forall (w : world) (pg : page) (r1 r2 : Response) (data1 data2 : json)
          (n1 n2 : number),
      response1 w = Fulfilled r1 -> response2 w = Fulfilled r2 ->
      body r1 = Some data1 -> body r2 = Some data2 ->
      volume data1 = Normal n1 -> volume data2 = Normal n2 ->
      is_nan n1 || is_nan n2 = true ->
      display w pg = ratio_line (crypto1 w) "NaN" (crypto2 w))
  /\
  (forall properties : list (string * json),
      own_property "quoteVolume" properties = None ->
      volume (JObject properties) = Normal NaN)
  /\
  (forall (w : world) (pg : page) (r1 r2 : Response) (data1 data2 : json),
      response1 w = Fulfilled r1 -> response2 w = Fulfilled r2 ->
      body r1 = Some data1 -> body r2 = Some data2 ->
      data1 = JNull \/ data2 = JNull ->
      display w pg = error_message).
Proof.
  split; [| split].
  - intros w pg r1 r2 data1 data2 n1 n2 H1 H2 B1 B2 V1 V2 N.
    rewrite (display_success w pg r1 r2 data1 data2 (div n1 n2))
      by (try assumption; apply volume_ratio_volumes; assumption).
    apply orb_true_iff in N as [N | N]; apply is_nan_eq in N; subst.
    + rewrite div_nan_l. reflexivity.
    + rewrite div_nan_r. reflexivity.
  - apply volume_of_missing.
  - intros w pg r1 r2 data1 data2 H1 H2 B1 B2 N.
    apply click_failure. do 4 right.
    exists r1, r2, data1, data2, TypeError.
    repeat split; try assumption. apply volume_ratio_null, N.
Qed.

Lemma missing_volume_witness :
  volume (JObject [("symbol", JString "BTCUSDT")]) = Normal NaN /\
  display missing_field_world blank = "1 BTCUSDT = NaN ETHUSDT".
Proof.
  split.
  - apply (proj1 (proj2 missing_volume_shows_NaN)). reflexivity.
  - refine (proj1 missing_volume_shows_NaN missing_field_world blank
              _ _ _ _ NaN (of_Z 500) _ _ _ _ _ _ _); reflexivity.
Defined.

(** C3 as written fails: the first document has no [quoteVolume], and
    the display is "1 BTCUSDT = NaN ETHUSDT", not the message. *)
Lemma missing_volume_not_reported :
  (exists r1 properties,
      response1 missing_field_world = Fulfilled r1 /\
      body r1 = Some (JObject properties) /\
      own_property "quoteVolume" properties = None) /\
  display missing_field_world blank = "1 BTCUSDT = NaN ETHUSDT" /\
  display missing_field_world blank <> error_message.
Proof.
  split; [do 2 eexists; repeat split; reflexivity |].
  assert (D : display missing_field_world blank = "1 BTCUSDT = NaN ETHUSDT")
    by (vm_compute; reflexivity).
  split; [exact D |]. rewrite D. discriminate.
Qed.

(** C4.  When both bodies parse, both volumes convert and the second
    is zero, the quotient is not finite, the display is set to
    "1 A = r B" with [r] one of "NaN", "Infinity", "-Infinity", and the
    message is not shown. *)
Theorem zero_divisor_not_handled :
  forall (w : world) (pg : page) (r1 r2 : Response) (data1 data2 : json)
         (vA vB : number),
    response1 w = Fulfilled r1 -> response2 w = Fulfilled r2 ->
    body r1 = Some data1 -> body r2 = Some data2 ->
    volume data1 = Normal vA -> volume data2 = Normal vB ->
    is_zero vB = true ->
    is_finite (div vA vB) = false /\
    display w pg
    = ratio_line (crypto1 w) (to_string (div vA vB)) (crypto2 w) /\
    (to_string (div vA vB) = "NaN" \/ to_string (div vA vB) = "Infinity"
     \/ to_string (div vA vB) = "-Infinity") /\
    display w pg <> error_message.
Proof.
  intros w pg r1 r2 data1 data2 vA vB H1 H2 B1 B2 V1 V2 Z.
  assert (F := div_by_zero_not_finite vA vB Z).
  destruct (toFixed_not_finite 2 _ F) as [T S].
  assert (D : display w pg
              = ratio_line (crypto1 w) (to_string (div vA vB)) (crypto2 w)).
  { rewrite <- T. apply (display_success w pg r1 r2 data1 data2);
      try assumption. apply volume_ratio_volumes; assumption. }
  repeat split; try assumption.
  rewrite D. apply ratio_line_not_error.
Qed.

Lemma zero_divisor_witness :
  is_zero (of_Z 0) = true /\
  display zero_volume_world blank = "1 BTCUSDT = Infinity ETHUSDT".
Proof.
  split; [reflexivity |].
  refine (proj1 (proj2 (zero_divisor_not_handled zero_volume_world blank
                          _ _ _ _ (of_Z 1000) (of_Z 0) _ _ _ _ _ _ _)));
    reflexivity.
Defined.

(** C5.  When a request is answered with a body that is not valid
    JSON, be it the first or the second, the display is set to exactly
    "Error fetching data." and nothing else is written. *)
Theorem invalid_json_shows_error :
  forall (w : world) (pg : page) (r : Response),
    (response1 w = Fulfilled r \/ response2 w = Fulfilled r) ->
    body r = None ->
    display w pg = error_message /\
    writes (trace (snd (click w pg))) = [("crypto-data", error_message)].
Proof.
  intros w pg r [H | H] B; apply click_failure.
  - right; right; left. eauto.
  - right; right; right; left. eauto.
Qed.

Lemma invalid_json_witness :
  (exists r, response2 bad_json_world = Fulfilled r /\ body r = None) /\
  display bad_json_world blank = error_message.
Proof.
  split; [eexists; split; reflexivity |].
  refine (proj1 (invalid_json_shows_error bad_json_world blank
                   {| status := 200; body := None |} _ _));
    [right; reflexivity | reflexivity].
Defined.

(** C6.  Every click writes to the page exactly once, to the display
    element: the ratio line, and then the page is otherwise as before
    and nothing is logged; or the message, and then the page is
    otherwise as before but for one entry added to the console. *)
Theorem one_write_per_click :
  forall (w : world) (pg : page),
  exists text : string,
    writes (trace (snd (click w pg))) = [("crypto-data", text)] /\
    (((exists r, text = ratio_line (crypto1 w) r (crypto2 w)) /\
      the_page (snd (click w pg)) = set_text "crypto-data" text pg)
     \/
     (text = error_message /\
      exists e, the_page (snd (click w pg))
                = log e (set_text "crypto-data" error_message pg))).
Proof.
  intros w pg. click_cases w.
  1: { eexists. split; [reflexivity |]. left.
       split; [eexists; reflexivity | reflexivity]. }
  all: exists error_message; split; [reflexivity |]; right;
    split; [reflexivity | eexists; reflexivity].
Qed.

(** C7.  Every click ends normally, and it sends one request for the
    first symbol, followed by at most one for the second, and no
    other. *)
Theorem no_retries :
  forall (w : world) (pg : page),
    fst (click w pg) = Normal tt /\
    (requests (trace (snd (click w pg))) = [url1 w] \/
     requests (trace (snd (click w pg))) = [url1 w; url2 w]).
Proof.
  intros w pg. click_cases w.
  6: split; [| left]; reflexivity.
  all: split; [| right]; reflexivity.
Qed.

(** C8.  The network sees the first request, then its answer, and only
    then, and only if that answer is not a rejection, the second
    request and its answer. *)
Theorem requests_in_sequence :
  forall (w : world) (pg : page),
    exchanges (trace (snd (click w pg))) =
    Request (url1 w) :: Settled (url1 w) (response1 w) ::
    match response1 w with
    | Fulfilled _ => [Request (url2 w); Settled (url2 w) (response2 w)]
    | Rejected _ => []
    end.
Proof.
  intros w pg. click_cases w; reflexivity.
Qed.

(** C9, amended.  Whatever the two fields hold, empty strings
    included, the click reads them and at once sends the first request,
    its URL the endpoint followed by the first string as it is; when
    that request is answered the second is sent likewise, and these two
    are all the requests. *)
Theorem no_local_validation :
  forall (w : world) (pg : page),
    (exists rest : list observation,
        trace (snd (click w pg)) =
        Read "crypto1" (crypto1 w) :: Read "crypto2" (crypto2 w) ::
        Request (endpoint ++ crypto1 w) :: rest)
    /\
    (forall r1 : Response,
        response1 w = Fulfilled r1 ->
        requests (trace (snd (click w pg)))
        = [endpoint ++ crypto1 w; endpoint ++ crypto2 w]).
Proof.
  intros w pg. click_cases w.
  6: split; [eexists; reflexivity | intros r1 H; discriminate H].
  all: split; [eexists; reflexivity | intros; reflexivity].
Qed.

Lemma no_local_validation_witness :
  crypto1 empty_fields_world = "" /\ crypto2 empty_fields_world = "" /\
  requests (trace (snd (click empty_fields_world blank)))
  = [endpoint; endpoint].
Proof.
  split; [reflexivity |]. split; [reflexivity |].
  refine (proj2 (no_local_validation empty_fields_world blank) _ _).
  reflexivity.
Defined.

(** C9 as written fails: with the first request rejected, the second
    is never sent, whatever the fields hold. *)
Lemma second_request_not_always_sent :
  crypto2 offline_world = "ETHUSDT" /\
  requests (trace (snd (click offline_world blank)))
  = [endpoint ++ "BTCUSDT"] /\
  ~ In (endpoint ++ "ETHUSDT")
       (requests (trace (snd (click offline_world blank)))).
Proof.
  split; [reflexivity |].
  assert (R : requests (trace (snd (click offline_world blank)))
              = [endpoint ++ "BTCUSDT"]) by reflexivity.
  split; [exact R |]. rewrite R. intros [H | []]. discriminate H.
Qed.

(** C10.  Two clicks with the same text in the two fields and the same
    answers to the two requests show the same text, whatever else
    differs. *)
Theorem handler_deterministic :
  forall (w w' : world) (pg pg' : page),
    crypto1 w = crypto1 w' -> crypto2 w = crypto2 w' ->
    response1 w = response1 w' -> response2 w = response2 w' ->
    display w pg = display w' pg'.
Proof.
  intros w w' pg pg' C1 C2 H1 H2.
  apply display_depends_on_seen; congruence.
Qed.

Lemma handler_deterministic_witness :
  display example_world blank = display other_world stale.
Proof.
  apply handler_deterministic; reflexivity.
Defined.

(** ** What the conversions can throw *)






(** ** More facts about the numbers and the page *)

(** A finite number that is not zero, divided by itself, is one. *)
Lemma div_self s m e :
  div (S754_finite s m e) (S754_finite s m e) = of_Z 1.
Proof.
  unfold div, SFdiv, SFdiv_core_binary.
  replace (Zdigits2 (Z.pos m) + e - (Zdigits2 (Z.pos m) + e)) with 0 by lia.
  replace (e - e) with 0 by lia.
  change (Z.min (fexp prec emax 0) 0) with (-53).
  change (0 - -53) with 53.
  cbv iota beta.
  assert (D : Z.div_eucl (Z.shiftl (Z.pos m) 53) (Z.pos m) = (2 ^ 53, 0)).
  { rewrite Z.shiftl_mul_pow2 by lia.
    assert (Q : Z.pos m * 2 ^ 53 / Z.pos m = 2 ^ 53)
      by (rewrite Z.mul_comm; apply Z.div_mul; lia).
    assert (R : (Z.pos m * 2 ^ 53) mod Z.pos m = 0)
      by (rewrite Z.mul_comm; apply Z.mod_mul; lia).
    unfold Z.div in Q. unfold Z.modulo in R.
    destruct (Z.div_eucl (Z.pos m * 2 ^ 53) (Z.pos m)) as [q r].
    simpl in Q, R. subst. reflexivity. }
  rewrite D. rewrite xorb_nilpotent.
  unfold new_location.
  destruct (Z.even (Z.pos m)); reflexivity.
Qed.

Lemma div_zero_l x y :
  is_zero x = true -> is_zero y = false -> is_nan y = false ->
  is_zero (div x y) = true.
Proof.
  destruct x; try discriminate. destruct y; try discriminate; reflexivity.
Qed.

Lemma div_infinite_r x y :
  is_finite x = true -> is_infinite y = true -> is_zero (div x y) = true.
Proof.
  destruct y; try discriminate. destruct x; try discriminate; reflexivity.
Qed.

Lemma toFixed_2_zero x : is_zero x = true -> toFixed 2 x = "0.00".
Proof. destruct x; try discriminate. reflexivity. Qed.

Lemma primitive_converts v :
  primitive v = true -> exists n, ToNumber v = Normal n.
Proof.
  destruct v as [[| [] | x | s | l | ps] |]; try discriminate;
    intros _; eexists; reflexivity.
Qed.


(** ** Further properties of the handler *)






(** X3.  A click whose volumes convert does nine things, in this
    order: it reads the two fields, sends the first request and gets
    its answer, sends the second request and gets its answer, reads the
    first body, reads the second body, and writes the ratio line. *)
Theorem steps_of_a_successful_click :
  forall (w : world) (pg : page) (r1 r2 : Response) (data1 data2 : json)
         (n1 n2 : number),
    response1 w = Fulfilled r1 -> response2 w = Fulfilled r2 ->
    body r1 = Some data1 -> body r2 = Some data2 ->
    volume data1 = Normal n1 -> volume data2 = Normal n2 ->
    trace (snd (click w pg)) =
    [Read "crypto1" (crypto1 w); Read "crypto2" (crypto2 w);
     Request (endpoint ++ crypto1 w);
     Settled (endpoint ++ crypto1 w) (Fulfilled r1);
     Request (endpoint ++ crypto2 w);
     Settled (endpoint ++ crypto2 w) (Fulfilled r2);
     BodyRead (Fulfilled data1); BodyRead (Fulfilled data2);
     Wrote "crypto-data"
       (ratio_line (crypto1 w) (toFixed 2 (div n1 n2)) (crypto2 w))].
Proof.
  intros w pg r1 r2 data1 data2 n1 n2 H1 H2 B1 B2 V1 V2.
  rewrite click_closed_form.
  unfold closed_form, after_bodies, read_json, exchange1, exchange2.
  rewrite H1, H2, B1, B2, (volume_ratio_volumes _ _ _ _ V1 V2).
  reflexivity.
Qed.

Lemma steps_of_a_successful_click_witness :
  List.length (trace (snd (click example_world blank))) = 9%nat.
Proof.
  rewrite (steps_of_a_successful_click example_world blank
             _ _ _ _ (of_Z 1000) (of_Z 500)
             eq_refl eq_refl eq_refl eq_refl eq_refl eq_refl).
  reflexivity.
Defined.

(** X4.  No body is read before both requests have been answered: with
    either request rejected no body is read at all.  With both answered
    the first body is read first, and when it is not valid JSON the
    second is never read. *)
Theorem bodies_read_after_both_answers :
  forall (w : world) (pg : page),
    (forall e, response1 w = Rejected e \/ response2 w = Rejected e ->
       body_reads (trace (snd (click w pg))) = []) /\
    (forall r1 r2,
       response1 w = Fulfilled r1 -> response2 w = Fulfilled r2 ->
       body r1 = None ->
       body_reads (trace (snd (click w pg))) = [Rejected SyntaxError]) /\
    (forall r1 r2 data1,
       response1 w = Fulfilled r1 -> response2 w = Fulfilled r2 ->
       body r1 = Some data1 ->
       body_reads (trace (snd (click w pg)))
       = [Fulfilled data1; read_json r2]).
Proof.
  intros w pg. rewrite click_closed_form.
  unfold closed_form, after_bodies, exchange1, exchange2.
  repeat split.
  - intros e [H | H].
    + rewrite H. reflexivity.
    + destruct (response1 w); [rewrite H |]; reflexivity.
  - intros r1 r2 H1 H2 B. rewrite H1, H2. unfold read_json. rewrite B.
    reflexivity.
  - intros r1 r2 data1 H1 H2 B. rewrite H1, H2. unfold read_json.
    rewrite B. destruct (body r2) as [data2 |]; [| reflexivity].
    destruct (volume_ratio data1 data2); reflexivity.
Qed.

Lemma bodies_read_after_both_answers_witness :
  body_reads (trace (snd (click offline_world blank))) = [].
Proof.
  apply (proj1 (bodies_read_after_both_answers offline_world blank)
           TypeError).
  left. reflexivity.
Defined.

(** X5.  Whatever JSON values the two [quoteVolume] fields hold, when
    both convert to numbers the display is set to "1 A = r B" with [r]
    the [toFixed(2)] text of the quotient of the converted numbers.
    Volumes sent as decimal strings, as the exchange sends them, are
    such values. *)
Theorem converted_volumes_displayed :
  forall (w : world) (pg : page) (r1 r2 : Response) (data1 data2 : json)
         (n1 n2 : number),
    response1 w = Fulfilled r1 -> response2 w = Fulfilled r2 ->
    body r1 = Some data1 -> body r2 = Some data2 ->
    volume data1 = Normal n1 -> volume data2 = Normal n2 ->
    display w pg
    = ratio_line (crypto1 w) (toFixed 2 (div n1 n2)) (crypto2 w).
Proof.
  intros w pg r1 r2 data1 data2 n1 n2 H1 H2 B1 B2 V1 V2.
  apply (display_success w pg r1 r2 data1 data2); try assumption.
  apply volume_ratio_volumes; assumption.
Qed.

Lemma converted_volumes_displayed_witness :
  display
    (make_world "BTCUSDT" "ETHUSDT"
       (btc (JString "1000.00000000")) (eth (JString " 5e2 ")))
    blank
  = "1 BTCUSDT = 2.00 ETHUSDT".
Proof.
  refine (converted_volumes_displayed _ blank _ _ _ _
            (of_Z 1000) (of_Z 500) _ _ _ _ _ _); reflexivity.
Defined.

(** X6.  When both bodies parse to documents that are not [null] and
    each [quoteVolume] is absent, [null], a boolean, a number or a
    string, the click never shows the message: the conversion cannot
    throw and a ratio line is shown. *)
Theorem primitive_volumes_never_fail :
  forall (w : world) (pg : page) (r1 r2 : Response) (data1 data2 : json)
         (v1 v2 : option json),
    response1 w = Fulfilled r1 -> response2 w = Fulfilled r2 ->
    body r1 = Some data1 -> body r2 = Some data2 ->
    quoteVolume data1 = Normal v1 -> quoteVolume data2 = Normal v2 ->
    primitive v1 = true -> primitive v2 = true ->
    (exists n1 n2,
        ToNumber v1 = Normal n1 /\ ToNumber v2 = Normal n2 /\
        display w pg
        = ratio_line (crypto1 w) (toFixed 2 (div n1 n2)) (crypto2 w)) /\
    display w pg <> error_message.
Proof.
  intros w pg r1 r2 data1 data2 v1 v2 H1 H2 B1 B2 Q1 Q2 P1 P2.
  destruct (primitive_converts v1 P1) as [n1 N1].
  destruct (primitive_converts v2 P2) as [n2 N2].
  assert (D : display w pg
              = ratio_line (crypto1 w) (toFixed 2 (div n1 n2)) (crypto2 w)).
  { apply (display_success w pg r1 r2 data1 data2); try assumption.
    unfold volume_ratio. rewrite Q1, Q2. cbn [rbind].
    rewrite N1, N2. reflexivity. }
  split; [exists n1, n2; auto |].
  rewrite D. apply ratio_line_not_error.
Qed.

Lemma primitive_volumes_never_fail_witness :
  display (make_world "A" "B"
             (respond 200 (JObject []))
             (respond 200 (ticker "B" (JBool true))))
          blank
  <> error_message.
Proof.
  refine (proj2 (primitive_volumes_never_fail _ blank _ _ _ _ None
                   (Some (JBool true)) _ _ _ _ _ _ _ _)); reflexivity.
Defined.

(** X7.  When both documents give the same finite volume that is not
    zero, as when the same symbol is typed into both fields, the text
    shown is "1 A = 1.00 B". *)
Theorem same_volume_shows_one :
  forall (w : world) (pg : page) (r1 r2 : Response) (data1 data2 : json)
         (x : number),
    response1 w = Fulfilled r1 -> response2 w = Fulfilled r2 ->
    body r1 = Some data1 -> body r2 = Some data2 ->
    volume data1 = Normal x -> volume data2 = Normal x ->
    is_finite x = true -> is_zero x = false ->
    display w pg = ratio_line (crypto1 w) "1.00" (crypto2 w).
Proof.
  intros w pg r1 r2 data1 data2 x H1 H2 B1 B2 V1 V2 F Z.
  rewrite (display_success w pg r1 r2 data1 data2 (div x x))
    by (try assumption; apply volume_ratio_volumes; assumption).
  destruct x as [s | s | | s m e]; try discriminate.
  rewrite div_self. reflexivity.
Qed.

Lemma same_volume_shows_one_witness :
  display (make_world "BTCUSDT" "BTCUSDT"
             (btc (JString "31415.92")) (btc (JString "31415.92")))
          blank
  = "1 BTCUSDT = 1.00 BTCUSDT".
Proof.
  refine (same_volume_shows_one _ blank _ _ _ _
            (StringToNumber "31415.92") _ _ _ _ _ _ _ _); reflexivity.
Defined.

(** X8.  When the first volume is zero and the second is a number
    other than zero, or the first is finite and the second infinite,
    the text shown is "1 A = 0.00 B". *)
Theorem zero_ratio_shown :
  forall (w : world) (pg : page) (r1 r2 : Response) (data1 data2 : json)
         (vA vB : number),
    response1 w = Fulfilled r1 -> response2 w = Fulfilled r2 ->
    body r1 = Some data1 -> body r2 = Some data2 ->
    volume data1 = Normal vA -> volume data2 = Normal vB ->
    (is_zero vA = true /\ is_zero vB = false /\ is_nan vB = false) \/
    (is_finite vA = true /\ is_infinite vB = true) ->
    display w pg = ratio_line (crypto1 w) "0.00" (crypto2 w).
Proof.
  intros w pg r1 r2 data1 data2 vA vB H1 H2 B1 B2 V1 V2 C.
  rewrite (display_success w pg r1 r2 data1 data2 (div vA vB))
    by (try assumption; apply volume_ratio_volumes; assumption).
  rewrite toFixed_2_zero; [reflexivity |].
  destruct C as [(Z & NZ & NN) | (F & I)].
  - apply div_zero_l; assumption.
  - apply div_infinite_r; assumption.
Qed.

Lemma zero_ratio_shown_witness :
  display (make_world "BTCUSDT" "ETHUSDT"
             (btc (JString "0.00000000")) (eth (JNumber (of_Z (-500)))))
          blank
  = "1 BTCUSDT = 0.00 ETHUSDT".
Proof.
  refine (zero_ratio_shown _ blank _ _ _ _ (S754_zero false) (of_Z (-500))
            _ _ _ _ _ _ _);
    try reflexivity. left. repeat split; reflexivity.
Defined.

(** X9.  With a zero second volume the text shown is decided by the
    first: "NaN" when it is zero or NaN, else "Infinity" when the two
    signs agree and "-Infinity" when they differ (a zero has a sign
    too). *)
Theorem text_for_a_zero_divisor :
  forall (w : world) (pg : page) (r1 r2 : Response) (data1 data2 : json)
         (vA vB : number),
    response1 w = Fulfilled r1 -> response2 w = Fulfilled r2 ->
    body r1 = Some data1 -> body r2 = Some data2 ->
    volume data1 = Normal vA -> volume data2 = Normal vB ->
    is_zero vB = true ->
    display w pg
    = ratio_line (crypto1 w)
        (if is_nan vA || is_zero vA then "NaN"
         else if xorb (sign_bit vA) (sign_bit vB) then "-Infinity"
              else "Infinity")
        (crypto2 w).
Proof.
  intros w pg r1 r2 data1 data2 vA vB H1 H2 B1 B2 V1 V2 Z.
  rewrite (display_success w pg r1 r2 data1 data2 (div vA vB))
    by (try assumption; apply volume_ratio_volumes; assumption).
  f_equal. destruct vB as [sb | | |]; try discriminate.
  destruct vA as [sa | sa | | sa m e]; cbn;
    try reflexivity; destruct sa, sb; reflexivity.
Qed.

Lemma text_for_a_zero_divisor_witness :
  display (make_world "BTCUSDT" "ETHUSDT"
             (btc (JNumber (of_Z 1000))) (eth (JString "-0")))
          blank
  = "1 BTCUSDT = -Infinity ETHUSDT".
Proof.
  refine (text_for_a_zero_divisor _ blank _ _ _ _ (of_Z 1000)
            (S754_zero true) _ _ _ _ _ _ _); reflexivity.
Defined.


(** X11.  Of each document only [quoteVolume] is used: two clicks with
    the same symbols, whose documents agree on that property, show the
    same text whatever else the documents hold. *)
Theorem only_quoteVolume_matters :
  forall (w w' : world) (pg : page) (r1 r2 r1' r2' : Response)
         (data1 data2 data1' data2' : json),
    crypto1 w = crypto1 w' -> crypto2 w = crypto2 w' ->
    response1 w = Fulfilled r1 -> response2 w = Fulfilled r2 ->
    response1 w' = Fulfilled r1' -> response2 w' = Fulfilled r2' ->
    body r1 = Some data1 -> body r2 = Some data2 ->
    body r1' = Some data1' -> body r2' = Some data2' ->
    quoteVolume data1 = quoteVolume data1' ->
    quoteVolume data2 = quoteVolume data2' ->
    display w pg = display w' pg.
Proof.
  intros w w' pg r1 r2 r1' r2' data1 data2 data1' data2'
    C1 C2 H1 H2 H1' H2' B1 B2 B1' B2' Q1 Q2.
  assert (V : volume_ratio data1 data2 = volume_ratio data1' data2')
    by (unfold volume_ratio; rewrite Q1, Q2; reflexivity).
  unfold display. rewrite !click_closed_form.
  unfold closed_form, after_bodies, read_json.
  rewrite H1, H2, H1', H2', B1, B2, B1', B2', V.
  destruct (volume_ratio data1' data2') as [ratio | e]; [| reflexivity].
  rewrite !display_shown, C1, C2. reflexivity.
Qed.

Lemma only_quoteVolume_matters_witness :
  display example_world blank
  = display
      (make_world "BTCUSDT" "ETHUSDT"
         (respond 200
            (JObject [("quoteVolume", JNumber (of_Z 1000));
                      ("lastPrice", JString "97000.10");
                      ("count", JNumber (of_Z 7))]))
         (respond 200 (JObject [("quoteVolume", JNumber (of_Z 500))])))
      blank.
Proof.
  refine (only_quoteVolume_matters example_world _ blank
            _ _ _ _ _ _ _ _ _ _ _ _ _ _ _ _ _ _ _ _); reflexivity.
Defined.
